(** * XBee AT-command codec and frame reader

    A shallow embedding of [ATCommands.py] (the AT command classes with
    [pack] and [describe], the [ATCommands] registry, [make_command],
    [parse_command]) and of [xbee.py] ([XBee.send_frame],
    [XBee.read_frame]), followed by the properties of the protocol
    specification that concern them and by further properties of the code.

    The sources are Python 2: a [str] is a sequence of bytes, a [dict] has
    [has_key], and [struct] raises [struct.error] on a bad argument. *)

From Stdlib Require Import ZArith Lia.
From Stdlib Require Import Strings.String Strings.Byte.
From Stdlib Require Import Numbers.HexadecimalString.
From stdpp Require Import base option list gmap strings.

Local Open Scope Z_scope.

(** ** Python outcomes *)

(** Exceptions.  The first six are the ones a statement of the two modules
    can raise by itself.  The last three are the error names used by the
    protocol specification; neither module defines or raises them, they are
    listed so that a statement about them can be written down. *)
Inductive exn : Set :=
  | struct_error
  | IndexError
  | KeyError
  | TypeError
  | AttributeError
  | UnboundLocalError
  | UnknownCommandError
  | UnsupportedPayloadWidthError
  | ChecksumMismatchError.

(** A call either returns a value or raises. *)
Inductive py (A : Type) : Type :=
  | Ret (a : A)
  | Raise (e : exn).
Arguments Ret {A} a.
Arguments Raise {A} e.

#[global] Instance py_ret : MRet py := fun A a => Ret a.
#[global] Instance py_bind : MBind py := fun A B f m =>
  match m with
  | Ret a => f a
  | Raise e => Raise e
  end.
#[global] Instance py_fmap : FMap py := fun A B f m =>
  match m with
  | Ret a => Ret (f a)
  | Raise e => Raise e
  end.

Definition returns {A} (m : py A) : bool :=
  match m with Ret _ => true | Raise _ => false end.

(** The values a command parameter takes: [None], or an integer. *)
Inductive value : Set :=
  | VNone
  | VInt (z : Z).

(** ** Byte strings *)

Abbreviation bytes := (list byte).

Definition Z_of_byte (b : byte) : Z := Z.of_N (Byte.to_N b).

Definition byte_of_Z (z : Z) : byte :=
  default x00 (Byte.of_N (Z.to_N (z mod 256))).

(** Big-endian unsigned integer held in a byte string. *)
Definition be_decode (bs : bytes) : Z :=
  fold_left (fun acc b => acc * 256 + Z_of_byte b) bs 0.

(** The [n] low-order bytes of [v], most significant first. *)
Fixpoint be_encode (n : nat) (v : Z) : bytes :=
  match n with
  | O => []
  | S k => be_encode k (v / 256) ++ [byte_of_Z v]
  end.

(** ** The [struct] module, for the formats the sources use *)

Module Struct.

(** Format [2s]: the first two bytes of the argument, padded with zero
    bytes when it is shorter. *)
Definition pack_2s (s : string) : bytes :=
  take 2 (list_byte_of_string s ++ [x00; x00]).

(** Format [I]: an integer in [0, 2^32) as four bytes; anything else,
    [None] included, is refused. *)
Definition pack_I (v : value) : py bytes :=
  match v with
  | VNone => Raise struct_error
  | VInt z =>
      if (0 <=? z) && (z <? 2 ^ 32) then Ret (be_encode 4 z)
      else Raise struct_error
  end.

(** [Struct(">2sI").pack(s, v)] *)
Definition pack_2sI (s : string) (v : value) : py bytes :=
  bs ← pack_I v; Ret (pack_2s s ++ bs).

(** [Struct(fmt).unpack_from(buf, offset)[0]] for a one-field unsigned
    format of [size] bytes ([>B], [>H], [>I]): the buffer must hold
    [size] bytes from [offset] on. *)
Definition unpack_from (size : nat) (buf : bytes) (offset : nat) : py Z :=
  if Z.of_nat (length buf) - Z.of_nat offset <? Z.of_nat size
  then Raise struct_error
  else Ret (be_decode (take size (drop offset buf))).

(** [Struct(">BH").unpack_from(buf)]: a pair, from at least three
    bytes. *)
Definition unpack_from_BH (buf : bytes) : py (Z * Z) :=
  if Z.of_nat (length buf) <? 3 then Raise struct_error
  else Ret (be_decode (take 1 buf), be_decode (take 2 (drop 1 buf))).

(** [struct.unpack(">B", s)[0]]: the string must be exactly one byte. *)
Definition unpack_B (s : bytes) : py Z :=
  match s with
  | [b] => Ret (Z_of_byte b)
  | _ => Raise struct_error
  end.

End Struct.

(** ** Dictionaries *)

Definition has_key {V} (d : gmap string V) (k : string) : bool :=
  bool_decide (is_Some (d !! k)).

(** [d[k]] *)
Definition getitem {V} (d : gmap string V) (k : string) : py V :=
  match d !! k with
  | Some v => Ret v
  | None => Raise KeyError
  end.

(** ** [ATCommands.py]: the command classes *)

(** The four classes derived from [ATCommand]. *)
Inductive ATClass : Set :=
  | ATCommandDH
  | ATCommandDL
  | ATCommandSH
  | ATCommandSL.

#[global] Instance ATClass_eq_dec : EqDecision ATClass.
Proof. solve_decision. Defined.

Definition nl : string := String (Ascii.ascii_of_nat 10) EmptyString.

(** Class attributes [command], [name], [category], [description]. *)
Module ClassAttr.

Definition command (c : ATClass) : string :=
  match c with
  | ATCommandDH => "DH"
  | ATCommandDL => "DL"
  | ATCommandSH => "SH"
  | ATCommandSL => "SL"
  end.

Definition name (c : ATClass) : string :=
  match c with
  | ATCommandDH => "Destination Address High"
  | ATCommandDL => "Destination Address Low"
  | ATCommandSH => "Serial Number High"
  | ATCommandSL => "Serial Number Low"
  end.

Definition category (c : ATClass) : string :=
  match c with
  | ATCommandDH | ATCommandDL => "Addressing"
  | ATCommandSH | ATCommandSL => "Diagnostics"
  end.

Definition description (c : ATClass) : string :=
  String.concat nl
    match c with
    | ATCommandDH =>
        [ ""; "            ";
          "    Set/Get the upper 32 bits of the 64-bit destination address. ";
          "    When combined with DL, it defines the 64-bit destination address for data transmission. ";
          "    Special definitions for DH and DL include 0x000000000000FFFF (broadcast) and 0x0000000000000000 (coordinator).";
          "    " ]
    | ATCommandDL =>
        [ ""; "            ";
          "    Set/Get the lower 32 bits of the 64-bit destination address. ";
          "    When combined with DH, it defines the 64-bit destination address for data transmissions.";
          "    Special definitions for DH and DL include 0x000000000000FFFF (broadcast) and 0x0000000000000000 (coordinator).";
          "    " ]
    | ATCommandSH =>
        [ ""; "            ";
          "    Used to read the high 32 bits of the RF module's unique IEEE 64-bit addresss.";
          "    The module serial number is set at the factory and is read-only.";
          "    " ]
    | ATCommandSL =>
        [ ""; "            ";
          "    Used to read the low 32 bits of the RF module's unique IEEE 64-bit addresss.";
          "    The module serial number is set at the factory and is read-only.";
          "    " ]
    end%string.

End ClassAttr.

(** An instance: its class and the five attributes [ATCommand.__init__]
    stores. *)
Record ATCommand : Set := mkATCommand {
  class_of : ATClass;
  command : string;
  param : value;
  name : string;
  category : string;
  descr : string
}.

(** [ATCommand.__init__(self, command, param, name, category, descr)] *)
Definition ATCommand_init (c : ATClass) (command : string) (param : value)
    (name category descr : string) : ATCommand :=
  mkATCommand c command param name category descr.

(** Calling a class with one argument.  [ATCommandDH] and [ATCommandDL]
    define [__init__(self, param)] and [pack]; [ATCommandSH] and
    [ATCommandSL] define neither, so [pack] stays abstract and the call is
    refused. *)
Definition new (c : ATClass) (param : value) : py ATCommand :=
  match c with
  | ATCommandDH =>
      Ret (ATCommand_init ATCommandDH
             (ClassAttr.command ATCommandDH) param
             (ClassAttr.name ATCommandDH)
             (ClassAttr.category ATCommandDH)
             (ClassAttr.description ATCommandDH))
  | ATCommandDL =>
      Ret (ATCommand_init ATCommandDL
             (ClassAttr.command ATCommandDL) param
             (ClassAttr.name ATCommandDL)
             (ClassAttr.category ATCommandDL)
             (ClassAttr.description ATCommandDL))
  | ATCommandSH | ATCommandSL => Raise TypeError
  end.

(** [self.pack()].  The result is [Some] buffer, or [None] for the bare
    [return] of the abstract [ATCommand.pack] that [ATCommandSH] and
    [ATCommandSL] inherit. *)
Definition pack (self : ATCommand) : py (option bytes) :=
  match class_of self with
  | ATCommandDH => Some <$> Struct.pack_2sI (command self) (param self)
  | ATCommandDL => Some <$> Struct.pack_2sI (command self) (param self)
  | ATCommandSH | ATCommandSL => Ret None
  end.

(** [o.pack()] on what a factory returned: [None] has no such method. *)
Definition call_pack (o : option ATCommand) : py (option bytes) :=
  match o with
  | Some self => pack self
  | None => Raise AttributeError
  end.

(** ** The registry and the two factories *)

Definition ATCommands : gmap string ATClass :=
  {[ "DH"%string := ATCommandDH; "DL"%string := ATCommandDL ]}.

(** [make_command(cmd, param)]: an instance, or [None]. *)
Definition make_command (cmd : string) (param : value)
    : py (option ATCommand) :=
  if has_key ATCommands cmd then
    cls ← getitem ATCommands cmd;
    Some <$> new cls param
  else Ret None.

(** The [if]/[elif] chain of [parse_command]: the local [param] after it,
    [None] when no branch assigned it.  The two registered classes hold the
    same three unpackers, [>B], [>H] and [>I]. *)
Definition parse_param (payload : bytes) (offset : nat) (paramsz : Z)
    : py (option Z) :=
  if paramsz =? 1 then Some <$> Struct.unpack_from 1 payload offset
  else if paramsz =? 2 then Some <$> Struct.unpack_from 2 payload offset
  else if paramsz =? 4 then Some <$> Struct.unpack_from 4 payload offset
  else Ret None.

(** Reading a local variable. *)
Definition load_local {A} (x : option A) : py A :=
  match x with
  | Some v => Ret v
  | None => Raise UnboundLocalError
  end.

(** [parse_command(cmd, payload)]: an instance, or [None]. *)
Definition parse_command (cmd : string) (payload : bytes)
    : py (option ATCommand) :=
  if has_key ATCommands cmd then
    let offset := 4%nat in
    let paramsz := Z.of_nat (length payload) - Z.of_nat offset in
    local ← parse_param payload offset paramsz;
    cls ← getitem ATCommands cmd;
    param ← load_local local;
    Some <$> new cls (VInt param)
  else Ret None.

(** ** [xbee.py]: reading a frame *)

(** [self.cxn.read(n)] on a serial connection whose pending input is
    [cxn]: the first [n] bytes (fewer when the input ends before that),
    and the input left. *)
Definition read (n : Z) (cxn : bytes) : bytes * bytes :=
  (take (Z.to_nat n) cxn, drop (Z.to_nat n) cxn).

(** [s[0]] on a string: a string of one byte. *)
Definition item0 (s : bytes) : py bytes :=
  match s with
  | [] => Raise IndexError
  | b :: _ => Ret [b]
  end.

Section ReadFrame.

(** [ZigBeeAPIFrames] is imported from module [zigbee], which is not
    among these sources.  It is a parameter here: subscripting it with a
    frame type raises or yields a callable, and calling that with the
    payload and the checksum string raises or yields a frame object. *)
Context {Frame : Type}.
Variable ZigBeeAPIFrames : Z -> py (bytes -> bytes -> py Frame).

(** [XBee.read_frame(self)]: the outcome, and the input left on the
    connection. *)
Definition read_frame (cxn : bytes) : py Frame * bytes :=
  let '(header, cxn) := read 3 cxn in
  match Struct.unpack_from_BH header with
  | Raise e => (Raise e, cxn)
  | Ret (SOM, sz) =>
      let '(payload, cxn) := read sz cxn in
      let '(chksum, cxn) := read 1 cxn in
      (c ← item0 payload;
       frametype ← Struct.unpack_B c;
       ctor ← ZigBeeAPIFrames frametype;
       ctor payload chksum, cxn)
  end.

End ReadFrame.

(** The checksum formula of the protocol specification,
    [0xFF - (sum(payload) mod 256)].  No function of the two modules
    computes it; it is here to state what [read_frame] does not do. *)
Definition spec_checksum (payload : bytes) : Z :=
  255 - (foldr (fun b acc => Z_of_byte b + acc) 0 payload) mod 256.

(** A frame-type table with one class for every type, whose instances
    record the two constructor arguments as they were passed. *)
Definition recording_frames : Z -> py (bytes -> bytes -> py (bytes * bytes)) :=
  fun _ => Ret (fun payload chksum => Ret (payload, chksum)).

(** ** [ATCommand.describe] *)

(** ["%x" % v]: lower-case hexadecimal, with a minus sign in front for a
    negative integer; [None] is not a number. *)
Definition format_x (v : value) : py string :=
  match v with
  | VNone => Raise TypeError
  | VInt z => Ret (NilZero.string_of_int (Z.to_hex_int z))
  end.

(** [self.describe()] *)
Definition describe (self : ATCommand) : py string :=
  let s := nl in
  let s := (s ++ " command:     " ++ command self ++ nl)%string in
  hex ← format_x (param self);
  let s := (s ++ " param:       " ++ ("0x" ++ hex) ++ nl)%string in
  let s := (s ++ " name:        " ++ name self ++ nl)%string in
  let s := (s ++ " category:    " ++ category self ++ nl)%string in
  let s := (s ++ " description: " ++ descr self ++ nl)%string in
  Ret s.

(** ** [xbee.py]: sending a frame *)

(** [self.cxn.write(data)]: the bytes join those already on the wire. *)
Definition write (data : bytes) (wire : bytes) : bytes := wire ++ data.

Section SendFrame.

(** A frame is any object with a [pack] method returning a string. *)
Context {F : Type}.
Variable frame_pack : F -> py bytes.

(** [XBee.send_frame(self, frame)]: the outcome, and the wire after it. *)
Definition send_frame (frame : F) (wire : bytes) : py unit * bytes :=
  match frame_pack frame with
  | Ret data => (Ret (), write data wire)
  | Raise e => (Raise e, wire)
  end.

End SendFrame.

(** The last two statements of [read_frame]: the frame type is read off
    [payload[0]], and the class [frames] holds for it is called. *)
Definition dispatch {Frame : Type}
    (frames : Z -> py (bytes -> bytes -> py Frame))
    (payload chksum : bytes) : py Frame :=
  c ← item0 payload;
  frametype ← Struct.unpack_B c;
  ctor ← frames frametype;
  ctor payload chksum.

(** * Properties *)

(** ** Bytes and big-endian integers *)

Lemma Z_of_byte_range (b : byte) : 0 <= Z_of_byte b < 256.
Proof.
  unfold Z_of_byte. pose proof (Byte.to_N_bounded b). lia.
Qed.

Lemma Z_of_byte_of_Z (z : Z) : Z_of_byte (byte_of_Z z) = z mod 256.
Proof.
  unfold byte_of_Z, Z_of_byte.
  pose proof (Z.mod_pos_bound z 256 ltac:(lia)) as Hr.
  destruct (Byte.of_N (Z.to_N (z mod 256))) as [b|] eqn:Hb.
  - apply Byte.to_of_N in Hb. simpl. rewrite Hb. lia.
  - apply Byte.of_N_None_iff in Hb. lia.
Qed.

Lemma be_decode_snoc (bs : bytes) (b : byte) :
  be_decode (bs ++ [b]) = be_decode bs * 256 + Z_of_byte b.
Proof. unfold be_decode. by rewrite fold_left_app. Qed.

Lemma length_be_encode (n : nat) (v : Z) : length (be_encode n v) = n.
Proof.
  revert v. induction n as [|n IH]; intros v; simpl; [done|].
  rewrite length_app, IH. simpl. lia.
Qed.

Lemma be_decode_encode (n : nat) (v : Z) :
  be_decode (be_encode n v) = v mod 256 ^ Z.of_nat n.
Proof.
  revert v. induction n as [|n IH]; intros v.
  - simpl. by rewrite Z.mod_1_r.
  - cbn [be_encode]. rewrite be_decode_snoc, IH, Z_of_byte_of_Z.
    rewrite Nat2Z.inj_succ, Z.pow_succ_r by lia.
    rewrite Z.rem_mul_r by lia. lia.
Qed.

Lemma be_decode_encode_4 (v : Z) :
  0 <= v < 2 ^ 32 -> be_decode (be_encode 4 v) = v.
Proof.
  intros Hv. rewrite be_decode_encode.
  change (256 ^ Z.of_nat 4) with (2 ^ 32). by apply Z.mod_small.
Qed.

(** ** The registry *)

Lemma ATCommands_lookup (cmd : string) (c : ATClass) :
  ATCommands !! cmd = Some c <->
  (cmd = "DH"%string /\ c = ATCommandDH) \/ (cmd = "DL"%string /\ c = ATCommandDL).
Proof.
  unfold ATCommands. rewrite lookup_insert_Some, lookup_singleton_Some.
  split; [|intros [[-> ->]|[-> ->]]; [by left | by right]].
  intros [[<- <-]|[_ [<- <-]]]; [by left | by right].
Qed.

Lemma has_key_ATCommands (cmd : string) :
  has_key ATCommands cmd = true <-> cmd = "DH"%string \/ cmd = "DL"%string.
Proof.
  unfold has_key. rewrite bool_decide_eq_true. split.
  - intros [c Hc]. apply ATCommands_lookup in Hc. tauto.
  - intros [->| ->]; eexists; apply ATCommands_lookup; eauto.
Qed.

Lemma has_key_false {V} (d : gmap string V) (k : string) :
  has_key d k = false <-> d !! k = None.
Proof.
  unfold has_key. rewrite bool_decide_eq_false, eq_None_not_Some. done.
Qed.

(** A registered code is the [command] attribute of its class, and the
    class is one that can be instantiated. *)
Lemma registered_new (cmd : string) (v : value) :
  has_key ATCommands cmd = true ->
  exists c, ATCommands !! cmd = Some c /\
    getitem ATCommands cmd = Ret c /\
    new c v = Ret (mkATCommand c cmd v (ClassAttr.name c)
                     (ClassAttr.category c) (ClassAttr.description c)) /\
    (c = ATCommandDH \/ c = ATCommandDL).
Proof.
  intros [-> | ->]%has_key_ATCommands.
  - exists ATCommandDH. repeat split; auto.
  - exists ATCommandDL. repeat split; auto.
Qed.

(** ** [make_command] and [pack] *)

Lemma make_command_registered (cmd : string) (v : value) :
  has_key ATCommands cmd = true ->
  exists c, ATCommands !! cmd = Some c /\
    (c = ATCommandDH \/ c = ATCommandDL) /\
    make_command cmd v =
      Ret (Some (mkATCommand c cmd v (ClassAttr.name c)
                   (ClassAttr.category c) (ClassAttr.description c))).
Proof.
  intros Hk. destruct (registered_new cmd v Hk) as (c & Hl & Hg & Hn & Hc).
  exists c. do 2 (split; [done|]).
  unfold make_command. rewrite Hk, Hg. simpl. by rewrite Hn.
Qed.

Lemma make_command_unregistered (cmd : string) (v : value) :
  has_key ATCommands cmd = false -> make_command cmd v = Ret None.
Proof. intros Hk. unfold make_command. by rewrite Hk. Qed.

(** With an integer parameter in range, [pack] of a [DH] or [DL] instance
    is the two code bytes followed by the four big-endian bytes. *)
Lemma pack_int (self : ATCommand) (p : Z) :
  class_of self = ATCommandDH \/ class_of self = ATCommandDL ->
  param self = VInt p -> 0 <= p < 2 ^ 32 ->
  pack self = Ret (Some (Struct.pack_2s (command self) ++ be_encode 4 p)).
Proof.
  intros Hc Hp Hr. unfold pack, Struct.pack_2sI, Struct.pack_I.
  rewrite Hp.
  replace ((0 <=? p) && (p <? 2 ^ 32)) with true
    by (symmetry; rewrite andb_true_iff, Z.leb_le, Z.ltb_lt; lia).
  by destruct Hc as [-> | ->].
Qed.

(** Without a parameter, [pack] of a [DH] or [DL] instance raises. *)
Lemma pack_none (self : ATCommand) :
  class_of self = ATCommandDH \/ class_of self = ATCommandDL ->
  param self = VNone -> pack self = Raise struct_error.
Proof.
  intros Hc Hp. unfold pack, Struct.pack_2sI, Struct.pack_I.
  rewrite Hp. by destruct Hc as [-> | ->].
Qed.

Lemma length_pack_2s (s : string) : length (Struct.pack_2s s) = 2%nat.
Proof.
  unfold Struct.pack_2s. rewrite length_take, length_app.
  change (length [x00; x00]) with 2%nat. lia.
Qed.

(** ** [parse_command] *)

Lemma unpack_from_exact (n offset : nat) (hdr body : bytes) :
  length hdr = offset -> length body = n ->
  Struct.unpack_from n (hdr ++ body) offset = Ret (be_decode body).
Proof.
  intros <- Hn. unfold Struct.unpack_from.
  rewrite length_app, drop_app_length, <- Hn, firstn_all.
  replace (_ <? _) with false by (symmetry; apply Z.ltb_ge; lia).
  done.
Qed.

Lemma parse_param_supported (hdr body : bytes) :
  length hdr = 4%nat ->
  length body = 1%nat \/ length body = 2%nat \/ length body = 4%nat ->
  parse_param (hdr ++ body) 4
    (Z.of_nat (length (hdr ++ body)) - Z.of_nat 4) = Ret (Some (be_decode body)).
Proof.
  intros Hh Hb. rewrite length_app, Hh. unfold parse_param.
  destruct Hb as [Hb | [Hb | Hb]]; rewrite Hb; simpl;
    by rewrite (unpack_from_exact _ _ hdr body Hh Hb).
Qed.

Lemma parse_param_unsupported (payload : bytes) (paramsz : Z) :
  paramsz <> 1 -> paramsz <> 2 -> paramsz <> 4 ->
  parse_param payload 4 paramsz = Ret None.
Proof.
  intros H1 H2 H4. unfold parse_param.
  by rewrite (proj2 (Z.eqb_neq _ _) H1), (proj2 (Z.eqb_neq _ _) H2),
    (proj2 (Z.eqb_neq _ _) H4).
Qed.

Lemma parse_command_supported (cmd : string) (hdr body : bytes) :
  has_key ATCommands cmd = true ->
  length hdr = 4%nat ->
  length body = 1%nat \/ length body = 2%nat \/ length body = 4%nat ->
  exists c, ATCommands !! cmd = Some c /\
    (c = ATCommandDH \/ c = ATCommandDL) /\
    parse_command cmd (hdr ++ body) =
      Ret (Some (mkATCommand c cmd (VInt (be_decode body)) (ClassAttr.name c)
                   (ClassAttr.category c) (ClassAttr.description c))).
Proof.
  intros Hk Hh Hb.
  destruct (registered_new cmd (VInt (be_decode body)) Hk)
    as (c & Hl & Hg & Hn & Hc).
  exists c. do 2 (split; [done|]).
  unfold parse_command. rewrite Hk. cbv zeta.
  rewrite (parse_param_supported hdr body Hh Hb). simpl.
  rewrite Hg. simpl. by rewrite Hn.
Qed.

Lemma parse_command_unsupported (cmd : string) (payload : bytes) :
  has_key ATCommands cmd = true ->
  Z.of_nat (length payload) - 4 <> 1 ->
  Z.of_nat (length payload) - 4 <> 2 ->
  Z.of_nat (length payload) - 4 <> 4 ->
  parse_command cmd payload = Raise UnboundLocalError.
Proof.
  intros Hk H1 H2 H4.
  destruct (registered_new cmd VNone Hk) as (c & _ & Hg & _).
  unfold parse_command. rewrite Hk. cbv zeta.
  change (Z.of_nat 4) with 4.
  rewrite (parse_param_unsupported payload _ H1 H2 H4). simpl.
  by rewrite Hg.
Qed.

(** ** Properties of the command codec *)

(** C1: for a registered code and a parameter in [0, 2^32), packing the
    command made by [make_command] and parsing frame-type byte, frame-id
    byte and the packed bytes with [parse_command] gives back a command
    with the same code and parameter (indeed the same command). *)
Theorem pack_parse_roundtrip (cmd : string) (p : Z) (frametype frameid : byte) :
  has_key ATCommands cmd = true ->
  0 <= p < 2 ^ 32 ->
  exists c packed,
    make_command cmd (VInt p) = Ret (Some c) /\
    pack c = Ret (Some packed) /\
    parse_command cmd (frametype :: frameid :: packed) = Ret (Some c) /\
    command c = cmd /\ param c = VInt p.
Proof.
  intros Hk Hp.
  destruct (make_command_registered cmd (VInt p) Hk) as (c & Hl & Hc & Hm).
  eexists _, (Struct.pack_2s cmd ++ be_encode 4 p).
  split; [exact Hm|]. split; [by apply pack_int|].
  split; [|done].
  destruct (parse_command_supported cmd
              (frametype :: frameid :: Struct.pack_2s cmd) (be_encode 4 p) Hk)
    as (c' & Hl' & _ & Hparse).
  - simpl. by rewrite length_pack_2s.
  - right; right. apply length_be_encode.
  - assert (c' = c) as -> by congruence.
    rewrite be_decode_encode_4 in Hparse by done. exact Hparse.
Qed.

Lemma pack_parse_roundtrip_witness :
  has_key ATCommands "DL" = true /\ 0 <= 0x12345678 < 2 ^ 32 /\
  exists c packed,
    make_command "DL" (VInt 0x12345678) = Ret (Some c) /\
    pack c = Ret (Some packed) /\
    parse_command "DL" (x08 :: x01 :: packed) = Ret (Some c) /\
    command c = "DL"%string /\ param c = VInt 0x12345678.
Proof.
  split; [reflexivity|]. split; [lia|].
  apply (pack_parse_roundtrip "DL" 0x12345678 x08 x01); [reflexivity | lia].
Defined.

(** C9: [parse_command] does not look at the first four payload bytes: for a
    registered [cmd] and a payload of 4 + 1, 4 + 2 or 4 + 4 bytes the
    command returned carries [cmd] as its code and the big-endian value of
    the bytes after the fourth, whatever the first four bytes are. *)
Theorem parse_command_ignores_header (cmd : string) (hdr body : bytes) :
  has_key ATCommands cmd = true ->
  length hdr = 4%nat ->
  length body = 1%nat \/ length body = 2%nat \/ length body = 4%nat ->
  exists c,
    parse_command cmd (hdr ++ body) = Ret (Some c) /\
    command c = cmd /\ param c = VInt (be_decode body) /\
    forall hdr' : bytes, length hdr' = 4%nat ->
      parse_command cmd (hdr' ++ body) = Ret (Some c).
Proof.
  intros Hk Hh Hb.
  destruct (parse_command_supported cmd hdr body Hk Hh Hb)
    as (c & Hl & _ & Hparse).
  eexists. split; [exact Hparse|]. do 2 (split; [done|]).
  intros hdr' Hh'.
  destruct (parse_command_supported cmd hdr' body Hk Hh' Hb)
    as (c' & Hl' & _ & Hparse').
  by assert (c' = c) as -> by congruence.
Qed.

Lemma parse_command_ignores_header_witness :
  has_key ATCommands "DH" = true /\
  exists c,
    parse_command "DH" ([x08; x01; "S"; "H"] ++ [xaa; xbb; xcc; xdd])%byte
      = Ret (Some c) /\
    command c = "DH"%string /\ param c = VInt 0xAABBCCDD.
Proof.
  split; [reflexivity|].
  destruct (parse_command_ignores_header "DH"
              [x08; x01; "S"; "H"]%byte [xaa; xbb; xcc; xdd])
    as (c & Hparse & Hcode & Hparam & _);
    [reflexivity | reflexivity | right; right; reflexivity |].
  exists c. split; [exact Hparse|]. split; [exact Hcode|]. exact Hparam.
Defined.

(** C2, as the code has it: for a registered code and a payload whose
    length minus 4 is not 1, 2 or 4, no branch of [parse_command] assigns
    [param], and reading it raises [UnboundLocalError]; no command is
    returned, so nothing is truncated or padded. *)
Theorem parse_command_unsupported_width (cmd : string) (payload : bytes) :
  has_key ATCommands cmd = true ->
  Z.of_nat (length payload) - 4 <> 1 ->
  Z.of_nat (length payload) - 4 <> 2 ->
  Z.of_nat (length payload) - 4 <> 4 ->
  parse_command cmd payload = Raise UnboundLocalError /\
  returns (parse_command cmd payload) = false.
Proof.
  intros Hk H1 H2 H4.
  by rewrite (parse_command_unsupported cmd payload Hk H1 H2 H4).
Qed.

Lemma parse_command_unsupported_width_witness :
  has_key ATCommands "DH" = true /\
  Z.of_nat (length [x08; x01; "D"; "H"]%byte) - 4 = 0 /\
  parse_command "DH" [x08; x01; "D"; "H"]%byte = Raise UnboundLocalError /\
  returns (parse_command "DH" [x08; x01; "D"; "H"]%byte) = false.
Proof.
  do 2 (split; [reflexivity|]).
  apply (parse_command_unsupported_width "DH" [x08; x01; "D"; "H"]%byte);
    [reflexivity | simpl; lia | simpl; lia | simpl; lia].
Defined.

(** C2, as stated, fails: with a three-byte parameter the error raised for
    ["DH"] is [UnboundLocalError], not [UnsupportedPayloadWidthError]. *)
Lemma parse_command_width_error_is_unbound_local :
  has_key ATCommands "DH" = true /\
  Z.of_nat (length [x08; x01; "D"; "H"; x00; xff; xff]%byte) - 4 = 3 /\
  parse_command "DH" [x08; x01; "D"; "H"; x00; xff; xff]%byte
    = Raise UnboundLocalError /\
  parse_command "DH" [x08; x01; "D"; "H"; x00; xff; xff]%byte
    <> Raise UnsupportedPayloadWidthError.
Proof. repeat split; discriminate. Qed.

(** C3, as the code has it: for a code that is not a key of [ATCommands],
    the lookup [has_key] returns false without raising, and [make_command]
    returns [None] without raising, whatever the parameter. *)
Theorem make_command_unknown_code (cmd : string) (v : value) :
  ATCommands !! cmd = None ->
  has_key ATCommands cmd = false /\ make_command cmd v = Ret None.
Proof.
  intros Hl. apply has_key_false in Hl.
  split; [done | by apply make_command_unregistered].
Qed.

Lemma make_command_unknown_code_witness :
  ATCommands !! "ZZ"%string = None /\
  has_key ATCommands "ZZ" = false /\ make_command "ZZ" (VInt 7) = Ret None.
Proof.
  split; [reflexivity|].
  apply (make_command_unknown_code "ZZ" (VInt 7)). reflexivity.
Defined.

(** C3, as stated, fails: [make_command("ZZ", 0)] returns [None]; it does
    not raise [UnknownCommandError]. *)
Lemma make_command_ZZ_returns_None :
  ATCommands !! "ZZ"%string = None /\
  make_command "ZZ" (VInt 0) = Ret None /\
  make_command "ZZ" (VInt 0) <> Raise UnknownCommandError.
Proof. repeat split; discriminate. Qed.

(** C4, at the query form: a [DH] or [DL] command made with no parameter
    does not pack to its two code bytes; [pack] raises [struct.error]. *)
Theorem pack_query_form_raises :
  make_command "DH" VNone ≫= call_pack = Raise struct_error /\
  make_command "DL" VNone ≫= call_pack = Raise struct_error /\
  make_command "DH" VNone ≫= call_pack <> Ret (Some ["D"; "H"]%byte).
Proof. repeat split; discriminate. Qed.

(** C5, as the code has it: the keys of [ATCommands] are exactly ["DH"] and
    ["DL"]; [make_command] with either returns an instance carrying that
    code, the parameter given and the class's metadata; ["SH"] and ["SL"]
    are not keys, and [make_command] with either returns [None]. *)
Theorem registry_is_DH_DL :
  (forall cmd, has_key ATCommands cmd = true <->
     cmd = "DH"%string \/ cmd = "DL"%string) /\
  (forall v, make_command "DH" v =
     Ret (Some (mkATCommand ATCommandDH "DH" v "Destination Address High"
                  "Addressing" (ClassAttr.description ATCommandDH)))) /\
  (forall v, make_command "DL" v =
     Ret (Some (mkATCommand ATCommandDL "DL" v "Destination Address Low"
                  "Addressing" (ClassAttr.description ATCommandDL)))) /\
  (forall v, has_key ATCommands "SH" = false /\ make_command "SH" v = Ret None) /\
  (forall v, has_key ATCommands "SL" = false /\ make_command "SL" v = Ret None).
Proof.
  split; [exact has_key_ATCommands|].
  repeat split; reflexivity.
Qed.

(** C5, as stated, fails: ["SH"] is not registered, and [make_command] with
    it returns [None] instead of a command. *)
Lemma SH_is_not_registered :
  has_key ATCommands "SH" = false /\
  ATCommands !! "SH"%string = None /\
  make_command "SH" VNone = Ret None /\
  has_key ATCommands "SL" = false /\
  make_command "SL" VNone = Ret None.
Proof. repeat split. Qed.

(** C7: [make_command("DH", 0x0000FFFF).pack()] is the six bytes
    44 48 00 00 FF FF. *)
Theorem pack_DH_broadcast :
  make_command "DH" (VInt 0x0000FFFF) ≫= call_pack
    = Ret (Some [x44; x48; x00; x00; xff; xff]).
Proof. reflexivity. Qed.

(** ** [read_frame] *)

Lemma read_app (n : Z) (front back : bytes) :
  Z.of_nat (length front) = n -> read n (front ++ back) = (front, back).
Proof.
  intros <-. unfold read. rewrite Nat2Z.id.
  by rewrite take_app_length, drop_app_length.
Qed.

Lemma be_decode_2 (hi lo : byte) :
  be_decode [hi; lo] = Z_of_byte hi * 256 + Z_of_byte lo.
Proof. unfold be_decode. simpl. lia. Qed.

Section ReadFrameFacts.

Context {Frame : Type}.
Variable ZigBeeAPIFrames : Z -> py (bytes -> bytes -> py Frame).

(** On a complete frame, [read_frame] takes the header, exactly the
    announced number of payload bytes and one more byte, and leaves the
    rest of the input. *)
Lemma read_frame_complete (som hi lo : byte) (payload : bytes)
    (ck : byte) (rest : bytes) :
  Z.of_nat (length payload) = Z_of_byte hi * 256 + Z_of_byte lo ->
  read_frame ZigBeeAPIFrames ([som; hi; lo] ++ payload ++ [ck] ++ rest) =
    (c ← item0 payload;
     frametype ← Struct.unpack_B c;
     ctor ← ZigBeeAPIFrames frametype;
     ctor payload [ck], rest).
Proof.
  intros Hlen. unfold read_frame.
  rewrite (read_app 3 [som; hi; lo]) by done.
  unfold Struct.unpack_from_BH.
  change (Z.of_nat (length [som; hi; lo]) <? 3) with false. cbv iota.
  change (take 2 (drop 1 [som; hi; lo])) with [hi; lo].
  rewrite be_decode_2, (read_app _ payload) by done.
  by rewrite (read_app 1 [ck]).
Qed.

(** C8: on an input holding a complete frame, [read_frame] takes three
    header bytes (a start byte and a two-byte big-endian length), then that
    many payload bytes, then one checksum byte, and leaves what follows; it
    takes [payload[0]] as the frame type and calls what [ZigBeeAPIFrames]
    holds for it on the payload and the checksum byte. *)
Theorem read_frame_consumption_order (som hi lo : byte) (payload : bytes)
    (ck : byte) (rest : bytes) :
  Z.of_nat (length payload) = Z_of_byte hi * 256 + Z_of_byte lo ->
  read_frame ZigBeeAPIFrames ([som; hi; lo] ++ payload ++ [ck] ++ rest) =
    (match payload with
     | [] => Raise IndexError
     | frametype :: _ =>
         ctor ← ZigBeeAPIFrames (Z_of_byte frametype); ctor payload [ck]
     end, rest).
Proof.
  intros Hlen. rewrite (read_frame_complete som hi lo payload ck rest Hlen).
  by destruct payload.
Qed.

(** C6, as the code has it: [read_frame] computes no checksum and raises
    nothing over it.  Whatever the trailing byte of the frame, equal to
    [0xFF - (sum(payload) mod 256)] or not, it hands the payload and the
    byte it received to the class registered for [payload[0]], and its
    outcome is the outcome of that call. *)
Theorem read_frame_forwards_checksum (som hi lo frametype : byte)
    (body : bytes) (ck : byte) (rest : bytes)
    (ctor : bytes -> bytes -> py Frame) :
  Z.of_nat (length (frametype :: body)) = Z_of_byte hi * 256 + Z_of_byte lo ->
  ZigBeeAPIFrames (Z_of_byte frametype) = Ret ctor ->
  read_frame ZigBeeAPIFrames
      ([som; hi; lo] ++ (frametype :: body) ++ [ck] ++ rest) =
    (ctor (frametype :: body) [ck], rest).
Proof.
  intros Hlen Hctor.
  rewrite (read_frame_complete som hi lo _ ck rest Hlen).
  simpl. by rewrite Hctor.
Qed.

(** C10: [read_frame] never looks at the start byte: two inputs that differ
    only in their first byte have the same outcome and leave the same
    input. *)
Theorem read_frame_ignores_SOM (som som' : byte) (input : bytes) :
  read_frame ZigBeeAPIFrames (som :: input) =
  read_frame ZigBeeAPIFrames (som' :: input).
Proof.
  unfold read_frame, read, Struct.unpack_from_BH.
  change (Z.to_nat 3) with 3%nat. cbn [take drop length].
  by destruct (Z.of_nat (S (length (take 2 input))) <? 3).
Qed.

End ReadFrameFacts.

Lemma read_frame_consumption_order_witness :
  Z.of_nat (length [x88; x01; "D"; "H"]%byte)
    = Z_of_byte x00 * 256 + Z_of_byte x04 /\
  read_frame recording_frames
      ([x7e; x00; x04] ++ [x88; x01; "D"; "H"] ++ [xe9] ++ [x7e; x00])%byte
    = (Ret ([x88; x01; "D"; "H"]%byte, [xe9]), [x7e; x00]).
Proof.
  split; [reflexivity|].
  apply (read_frame_consumption_order recording_frames
           x7e x00 x04 [x88; x01; "D"; "H"]%byte xe9 [x7e; x00]).
  reflexivity.
Defined.

Lemma read_frame_forwards_checksum_witness :
  Z_of_byte x00 <> spec_checksum [x88; x01; "D"; "H"]%byte /\
  read_frame recording_frames
      ([x7e; x00; x04] ++ [x88; x01; "D"; "H"] ++ [x00] ++ [])%byte
    = (Ret ([x88; x01; "D"; "H"]%byte, [x00]), []).
Proof.
  split; [discriminate|].
  apply (read_frame_forwards_checksum recording_frames
           x7e x00 x04 x88 [x01; "D"; "H"]%byte x00 []
           (fun payload chksum => Ret (payload, chksum)));
    reflexivity.
Defined.

(** C6, as stated, fails.  The payload 08 01 has checksum 0xF6; the frame
    7E 00 02 08 01 00 carries 0x00 instead, and [read_frame] returns the
    frame object its class built from these very bytes.  And with an empty
    payload [read_frame] raises [IndexError], whatever the table and the
    trailing byte. *)
Lemma read_frame_accepts_bad_checksum :
  spec_checksum [x08; x01] = 0xF6 /\
  Z_of_byte x00 <> spec_checksum [x08; x01] /\
  read_frame recording_frames ([x7e; x00; x02] ++ [x08; x01] ++ [x00])
    = (Ret ([x08; x01], [x00]), []) /\
  fst (read_frame recording_frames ([x7e; x00; x02] ++ [x08; x01] ++ [x00]))
    <> Raise ChecksumMismatchError /\
  spec_checksum [] = 0xFF /\
  (forall (Frame : Type) (frames : Z -> py (bytes -> bytes -> py Frame)),
     read_frame frames [x7e; x00; x00; x00] = (Raise IndexError, [])).
Proof. repeat split; discriminate. Qed.

(** * Further properties of the two modules *)

(** ** Big-endian bytes, continued *)

Lemma byte_of_Z_of_byte (b : byte) : byte_of_Z (Z_of_byte b) = b.
Proof.
  unfold byte_of_Z. pose proof (Z_of_byte_range b) as Hr.
  rewrite Z.mod_small by done. unfold Z_of_byte.
  by rewrite N2Z.id, Byte.of_to_N.
Qed.

Lemma byte_of_Z_shift (d : Z) (b : byte) :
  byte_of_Z (d * 256 + Z_of_byte b) = b.
Proof.
  unfold byte_of_Z at 1.
  rewrite Z.add_comm, Z.mod_add by lia.
  apply byte_of_Z_of_byte.
Qed.

Lemma be_decode_range (bs : bytes) :
  0 <= be_decode bs < 256 ^ Z.of_nat (length bs).
Proof.
  induction bs as [|b bs IH] using rev_ind; [by compute|].
  rewrite be_decode_snoc, length_app. cbn [length].
  replace (Z.of_nat (length bs + 1)) with (Z.succ (Z.of_nat (length bs))) by lia.
  rewrite Z.pow_succ_r by lia.
  pose proof (Z_of_byte_range b). nia.
Qed.

Lemma be_encode_decode (bs : bytes) :
  be_encode (length bs) (be_decode bs) = bs.
Proof.
  induction bs as [|b bs IH] using rev_ind; [done|].
  rewrite length_app, Nat.add_comm. cbn [length Nat.add be_encode].
  rewrite be_decode_snoc, byte_of_Z_shift. f_equal.
  pose proof (Z_of_byte_range b).
  replace ((be_decode bs * 256 + Z_of_byte b) / 256) with (be_decode bs);
    [done|].
  rewrite Z.add_comm, Z.div_add by lia. rewrite Z.div_small by lia. lia.
Qed.

Lemma be_encode_zero (k : nat) : be_encode k 0 = replicate k x00.
Proof.
  induction k as [|k IH]; [done|].
  cbn [be_encode]. change (0 / 256) with 0. rewrite IH.
  change (byte_of_Z 0) with x00.
  change (replicate k x00 ++ [x00]) with (replicate k x00 ++ replicate 1 x00).
  rewrite <- replicate_add. f_equal. lia.
Qed.

(** A value that fits [n] bytes, written at a larger width, is the same
    bytes after leading zeros. *)
Lemma be_encode_pad (k n : nat) (v : Z) :
  0 <= v < 256 ^ Z.of_nat n ->
  be_encode (k + n) v = replicate k x00 ++ be_encode n v.
Proof.
  revert v. induction n as [|n IH]; intros v Hv.
  - assert (v = 0) as -> by (change (256 ^ Z.of_nat 0) with 1 in Hv; lia).
    rewrite Nat.add_0_r, app_nil_r. apply be_encode_zero.
  - rewrite Nat.add_succ_r. cbn [be_encode].
    rewrite IH, app_assoc; [done|].
    rewrite Nat2Z.inj_succ, Z.pow_succ_r in Hv by lia.
    split; [apply Z.div_pos; lia | apply Z.div_lt_upper_bound; lia].
Qed.

(** ** [pack], continued *)

Lemma make_then_pack (cmd : string) (p : Z) :
  has_key ATCommands cmd = true ->
  make_command cmd (VInt p) ≫= call_pack =
    if (0 <=? p) && (p <? 2 ^ 32)
    then Ret (Some (Struct.pack_2s cmd ++ be_encode 4 p))
    else Raise struct_error.
Proof.
  intros Hk.
  destruct (make_command_registered cmd (VInt p) Hk) as (c & _ & Hc & ->).
  cbn. unfold pack, Struct.pack_2sI, Struct.pack_I. cbn.
  destruct Hc as [-> | ->]; by destruct ((0 <=? p) && (p <? 2 ^ 32)).
Qed.

Lemma pack_2s_registered (cmd : string) :
  has_key ATCommands cmd = true -> Struct.pack_2s cmd = list_byte_of_string cmd.
Proof. by intros [-> | ->]%has_key_ATCommands. Qed.

Lemma in_range_true (p : Z) :
  0 <= p < 2 ^ 32 -> (0 <=? p) && (p <? 2 ^ 32) = true.
Proof. intros Hp. rewrite andb_true_iff, Z.leb_le, Z.ltb_lt. lia. Qed.

Lemma in_range_false (p : Z) :
  p < 0 \/ 2 ^ 32 <= p -> (0 <=? p) && (p <? 2 ^ 32) = false.
Proof. intros Hp. rewrite andb_false_iff, Z.leb_gt, Z.ltb_ge. lia. Qed.

(** X1: for a registered code and a parameter in [0, 2^32), the buffer
    [make_command(cmd, p).pack()] returns has six bytes: the two
    characters of the code, then four bytes whose big-endian value is
    [p]. *)
Theorem pack_layout (cmd : string) (p : Z) :
  has_key ATCommands cmd = true ->
  0 <= p < 2 ^ 32 ->
  exists buf,
    make_command cmd (VInt p) ≫= call_pack = Ret (Some buf) /\
    length buf = 6%nat /\
    take 2 buf = list_byte_of_string cmd /\
    be_decode (drop 2 buf) = p.
Proof.
  intros Hk Hp. eexists. split.
  - by rewrite (make_then_pack cmd p Hk), (in_range_true p Hp).
  - rewrite <- (pack_2s_registered cmd Hk).
    pose proof (length_pack_2s cmd) as Hl.
    rewrite length_app, Hl, length_be_encode.
    rewrite (take_app_length' _ _ 2 (eq_sym Hl)).
    rewrite (drop_app_length' _ _ 2 (eq_sym Hl)).
    by rewrite be_decode_encode_4.
Qed.

Lemma pack_layout_witness :
  has_key ATCommands "DL" = true /\ 0 <= 0xC0FFEE < 2 ^ 32 /\
  exists buf,
    make_command "DL" (VInt 0xC0FFEE) ≫= call_pack = Ret (Some buf) /\
    length buf = 6%nat /\
    take 2 buf = list_byte_of_string "DL" /\
    be_decode (drop 2 buf) = 0xC0FFEE.
Proof.
  split; [reflexivity|]. split; [lia|].
  apply (pack_layout "DL" 0xC0FFEE); [reflexivity | lia].
Defined.

(** X2: for a registered code, a negative parameter or one of 2^32 and
    more is accepted by [make_command] and refused by [pack], which raises
    [struct.error]. *)
Theorem pack_out_of_range (cmd : string) (p : Z) :
  has_key ATCommands cmd = true ->
  p < 0 \/ 2 ^ 32 <= p ->
  returns (make_command cmd (VInt p)) = true /\
  make_command cmd (VInt p) ≫= call_pack = Raise struct_error.
Proof.
  intros Hk Hp. split.
  - by destruct (make_command_registered cmd (VInt p) Hk) as (c & _ & _ & ->).
  - by rewrite (make_then_pack cmd p Hk), (in_range_false p Hp).
Qed.

Lemma pack_out_of_range_witness :
  has_key ATCommands "DH" = true /\ (2 ^ 32 < 0 \/ 2 ^ 32 <= 2 ^ 32) /\
  returns (make_command "DH" (VInt (2 ^ 32))) = true /\
  make_command "DH" (VInt (2 ^ 32)) ≫= call_pack = Raise struct_error.
Proof.
  split; [reflexivity|]. split; [right; lia|].
  apply (pack_out_of_range "DH" (2 ^ 32)); [reflexivity | right; lia].
Defined.

(** X3: the packed bytes determine the command: two registered codes with
    parameters in [0, 2^32) that pack to the same buffer are the same code
    with the same parameter. *)
Theorem pack_injective (cmd cmd' : string) (p p' : Z) :
  has_key ATCommands cmd = true -> has_key ATCommands cmd' = true ->
  0 <= p < 2 ^ 32 -> 0 <= p' < 2 ^ 32 ->
  make_command cmd (VInt p) ≫= call_pack
    = make_command cmd' (VInt p') ≫= call_pack ->
  cmd = cmd' /\ p = p'.
Proof.
  intros Hk Hk' Hp Hp'.
  rewrite (make_then_pack cmd p Hk), (make_then_pack cmd' p' Hk').
  rewrite (in_range_true p Hp), (in_range_true p' Hp').
  intros [= Heq]. apply app_inj_1 in Heq as [Hcode Hparam];
    [|by rewrite !length_pack_2s].
  split.
  - apply has_key_ATCommands in Hk as [-> | ->];
      apply has_key_ATCommands in Hk' as [-> | ->]; done.
  - apply (f_equal be_decode) in Hparam.
    change (be_decode (be_encode 4 p) = be_decode (be_encode 4 p')) in Hparam.
    by rewrite !be_decode_encode_4 in Hparam.
Qed.

Lemma pack_injective_witness :
  has_key ATCommands "DH" = true /\ 0 <= 7 < 2 ^ 32 /\
  make_command "DH" (VInt 7) ≫= call_pack
    = make_command "DH" (VInt (3 + 4)) ≫= call_pack /\
  "DH"%string = "DH"%string /\ 7 = 3 + 4.
Proof.
  split; [reflexivity|]. split; [lia|]. split; [reflexivity|].
  apply (pack_injective "DH" "DH" 7 (3 + 4));
    [reflexivity | reflexivity | lia | lia | reflexivity].
Defined.

(** ** The factories, continued *)

(** X4: [make_command] never raises.  For a code that is not a key of
    [ATCommands] it returns [None]; for a key it returns an instance of the
    class stored under it, whose code is both the key and the class's own
    [command] attribute, whose parameter is the argument as given ([None]
    and out-of-range integers included) and whose metadata are the class's. *)
Theorem make_command_cases (cmd : string) (v : value) :
  (ATCommands !! cmd = None /\ make_command cmd v = Ret None) \/
  (exists c,
     make_command cmd v = Ret (Some c) /\
     ATCommands !! cmd = Some (class_of c) /\
     command c = cmd /\ ClassAttr.command (class_of c) = cmd /\
     param c = v /\
     name c = ClassAttr.name (class_of c) /\
     category c = ClassAttr.category (class_of c) /\
     descr c = ClassAttr.description (class_of c)).
Proof.
  destruct (has_key ATCommands cmd) eqn:Hk.
  - right. destruct (make_command_registered cmd v Hk) as (c & Hl & _ & Hm).
    eexists. split; [exact Hm|]. cbn. repeat split; try done.
    by apply ATCommands_lookup in Hl as [[-> ->] | [-> ->]].
  - left. split; [by apply has_key_false | by apply make_command_unregistered].
Qed.

Lemma length_supported (payload : bytes) :
  (length payload =? 5)%nat || (length payload =? 6)%nat
    || (length payload =? 8)%nat = true ->
  length (take 4 payload) = 4%nat /\
  (length (drop 4 payload) = 1%nat \/ length (drop 4 payload) = 2%nat \/
   length (drop 4 payload) = 4%nat).
Proof.
  rewrite !orb_true_iff, !Nat.eqb_eq, length_take, length_drop. lia.
Qed.

Lemma length_unsupported (payload : bytes) :
  (length payload =? 5)%nat || (length payload =? 6)%nat
    || (length payload =? 8)%nat = false ->
  Z.of_nat (length payload) - 4 <> 1 /\
  Z.of_nat (length payload) - 4 <> 2 /\
  Z.of_nat (length payload) - 4 <> 4.
Proof. rewrite !orb_false_iff, !Nat.eqb_neq. lia. Qed.

Lemma parse_command_eq (cmd : string) (payload : bytes) :
  parse_command cmd payload =
    if has_key ATCommands cmd then
      if (length payload =? 5)%nat || (length payload =? 6)%nat
           || (length payload =? 8)%nat
      then make_command cmd (VInt (be_decode (drop 4 payload)))
      else Raise UnboundLocalError
    else Ret None.
Proof.
  destruct (has_key ATCommands cmd) eqn:Hk.
  - destruct (_ || _) eqn:Hlen.
    + apply length_supported in Hlen as [Hh Hb].
      rewrite <- (take_drop 4 payload) at 1.
      destruct (parse_command_supported cmd _ _ Hk Hh Hb) as (c & Hl & _ & ->).
      destruct (make_command_registered cmd (VInt (be_decode (drop 4 payload))) Hk)
        as (c' & Hl' & _ & ->).
      by assert (c' = c) as -> by congruence.
    + apply length_unsupported in Hlen as (H1 & H2 & H4).
      by apply parse_command_unsupported.
  - unfold parse_command. by rewrite Hk.
Qed.

(** X5: what [parse_command] does, case by case.  For a code that is not
    registered it returns [None], whatever the payload.  For a registered
    code and a payload of 5, 6 or 8 bytes it returns what [make_command]
    returns for the big-endian value of the bytes after the fourth.  For a
    registered code and any other payload length, shorter than the header
    included, it raises [UnboundLocalError]. *)
Theorem parse_command_cases (cmd : string) (payload : bytes) :
  parse_command cmd payload =
    if has_key ATCommands cmd then
      if (length payload =? 5)%nat || (length payload =? 6)%nat
           || (length payload =? 8)%nat
      then make_command cmd (VInt (be_decode (drop 4 payload)))
      else Raise UnboundLocalError
    else Ret None.
Proof. apply parse_command_eq. Qed.

(** X6: the only exception [parse_command] raises is [UnboundLocalError],
    and only for a registered code with a payload that is not 5, 6 or 8
    bytes long: the unpackers are never handed too short a buffer, and the
    registry is never subscripted with a missing key. *)
Theorem parse_command_raises_only_unbound (cmd : string) (payload : bytes)
    (e : exn) :
  parse_command cmd payload = Raise e ->
  e = UnboundLocalError /\
  has_key ATCommands cmd = true /\
  length payload <> 5%nat /\ length payload <> 6%nat /\ length payload <> 8%nat.
Proof.
  rewrite parse_command_eq.
  destruct (has_key ATCommands cmd) eqn:Hk; [|done].
  destruct (_ || _) eqn:Hlen.
  - by destruct (make_command_registered cmd (VInt (be_decode (drop 4 payload))) Hk)
      as (c & _ & _ & ->).
  - intros [= <-]. apply length_unsupported in Hlen. repeat split; lia.
Qed.

Lemma parse_command_raises_only_unbound_witness :
  parse_command "DL" [] = Raise UnboundLocalError /\
  UnboundLocalError = UnboundLocalError /\
  has_key ATCommands "DL" = true /\
  length (@nil byte) <> 5%nat /\ length (@nil byte) <> 6%nat /\
  length (@nil byte) <> 8%nat.
Proof.
  split; [reflexivity|].
  apply (parse_command_raises_only_unbound "DL" [] UnboundLocalError).
  reflexivity.
Defined.

Lemma parsed_param (cmd : string) (payload : bytes) (c : ATCommand) :
  parse_command cmd payload = Ret (Some c) ->
  has_key ATCommands cmd = true /\
  (length payload = 5%nat \/ length payload = 6%nat \/ length payload = 8%nat) /\
  (class_of c = ATCommandDH \/ class_of c = ATCommandDL) /\
  command c = cmd /\
  param c = VInt (be_decode (drop 4 payload)).
Proof.
  rewrite parse_command_eq.
  destruct (has_key ATCommands cmd) eqn:Hk; [|done].
  destruct (_ || _) eqn:Hlen; [|done].
  destruct (make_command_registered cmd (VInt (be_decode (drop 4 payload))) Hk)
    as (c' & _ & Hc & ->).
  intros [= <-]. cbn. repeat split; try done.
  rewrite !orb_true_iff, !Nat.eqb_eq in Hlen. tauto.
Qed.

(** X7: a command returned by [parse_command] always carries an integer
    parameter, never [None]: the big-endian value of the payload bytes after
    the fourth, at least 0 and below 256 to the number of those bytes, hence
    below 2^32.  [describe] returns for it. *)
Theorem parsed_command_has_parameter (cmd : string) (payload : bytes)
    (c : ATCommand) :
  parse_command cmd payload = Ret (Some c) ->
  exists v,
    param c = VInt v /\
    v = be_decode (drop 4 payload) /\
    0 <= v < 256 ^ (Z.of_nat (length payload) - 4) /\
    v < 2 ^ 32 /\
    returns (describe c) = true.
Proof.
  intros (_ & Hlen & _ & _ & Hp)%parsed_param.
  exists (be_decode (drop 4 payload)).
  pose proof (be_decode_range (drop 4 payload)) as Hr.
  rewrite length_drop in Hr.
  replace (Z.of_nat (length payload - 4)) with (Z.of_nat (length payload) - 4)
    in Hr by lia.
  split; [done|]. split; [done|]. split; [done|]. split.
  - destruct Hlen as [Hl | [Hl | Hl]]; rewrite Hl in Hr; simpl in Hr; lia.
  - unfold describe. by rewrite Hp.
Qed.

Lemma parsed_command_has_parameter_witness :
  parse_command "DL" [x88; x01; "D"; "L"; xbe; xef]%byte
    = Ret (Some (mkATCommand ATCommandDL "DL" (VInt 0xBEEF)
                   (ClassAttr.name ATCommandDL)
                   (ClassAttr.category ATCommandDL)
                   (ClassAttr.description ATCommandDL))) /\
  exists v,
    VInt 0xBEEF = VInt v /\
    v = be_decode (drop 4 [x88; x01; "D"; "L"; xbe; xef]%byte) /\
    0 <= v < 256 ^ (Z.of_nat (length [x88; x01; "D"; "L"; xbe; xef]%byte) - 4) /\
    v < 2 ^ 32 /\
    returns (describe (mkATCommand ATCommandDL "DL" (VInt 0xBEEF)
                         (ClassAttr.name ATCommandDL)
                         (ClassAttr.category ATCommandDL)
                         (ClassAttr.description ATCommandDL))) = true.
Proof.
  split; [reflexivity|].
  apply (parsed_command_has_parameter "DL"
           [x88; x01; "D"; "L"; xbe; xef]%byte
           (mkATCommand ATCommandDL "DL" (VInt 0xBEEF)
              (ClassAttr.name ATCommandDL)
              (ClassAttr.category ATCommandDL)
              (ClassAttr.description ATCommandDL))).
  reflexivity.
Defined.

(** X8: parsing and packing again.  For a registered code and a payload of
    four header bytes and a parameter of 1, 2 or 4 bytes, [pack] on the
    command [parse_command] returns gives the two characters of the code
    and the parameter widened to four bytes with leading zero bytes; with a
    four-byte parameter, these are the parameter bytes themselves. *)
Theorem parse_then_pack (cmd : string) (hdr body : bytes) :
  has_key ATCommands cmd = true ->
  length hdr = 4%nat ->
  length body = 1%nat \/ length body = 2%nat \/ length body = 4%nat ->
  parse_command cmd (hdr ++ body) ≫= call_pack =
    Ret (Some (list_byte_of_string cmd
                 ++ replicate (4 - length body) x00 ++ body)).
Proof.
  intros Hk Hh Hb.
  destruct (parse_command_supported cmd hdr body Hk Hh Hb)
    as (c & _ & Hc & ->).
  pose proof (be_decode_range body) as Hr.
  match goal with |- Ret (Some ?self) ≫= _ = _ =>
    change (pack self = Ret (Some (list_byte_of_string cmd
              ++ replicate (4 - length body) x00 ++ body)));
    rewrite (pack_int self (be_decode body) Hc eq_refl)
  end.
  - change (command _) with cmd.
    rewrite (pack_2s_registered cmd Hk). do 3 f_equal.
    rewrite <- (be_encode_decode body) at 3.
    rewrite <- be_encode_pad by done. f_equal. lia.
  - split; [lia|].
    destruct Hb as [Hl | [Hl | Hl]]; rewrite Hl in Hr; simpl in Hr; lia.
Qed.

Lemma parse_then_pack_witness :
  has_key ATCommands "DH" = true /\
  parse_command "DH" ([x88; x01; "D"; "H"] ++ [x12; x34])%byte ≫= call_pack
    = Ret (Some ["D"; "H"; x00; x00; x12; x34]%byte).
Proof.
  split; [reflexivity|].
  apply (parse_then_pack "DH" [x88; x01; "D"; "H"]%byte [x12; x34]);
    [reflexivity | reflexivity | right; left; reflexivity].
Defined.

(** X9: [describe] on what [make_command] returns for a registered code:
    with no parameter (the query form) it raises [TypeError]; with any
    integer, negative or beyond 32 bits included, it returns. *)
Theorem describe_of_made_command (cmd : string) (v : value) :
  has_key ATCommands cmd = true ->
  exists c,
    make_command cmd v = Ret (Some c) /\
    match v with
    | VNone => describe c = Raise TypeError
    | VInt _ => returns (describe c) = true
    end.
Proof.
  intros Hk. destruct (make_command_registered cmd v Hk) as (c & _ & _ & Hm).
  eexists. split; [exact Hm|]. by destruct v.
Qed.

Lemma describe_of_made_command_witness :
  has_key ATCommands "DH" = true /\
  exists c,
    make_command "DH" VNone = Ret (Some c) /\ describe c = Raise TypeError.
Proof.
  split; [reflexivity|].
  apply (describe_of_made_command "DH" VNone). reflexivity.
Defined.

(** ** [read_frame] and [send_frame], continued *)


Lemma announced_length_range (header : bytes) :
  0 <= be_decode (take 2 (drop 1 header)) < 65536.
Proof.
  pose proof (be_decode_range (take 2 (drop 1 header))) as Hr.
  assert (length (take 2 (drop 1 header)) <= 2)%nat as Hl
    by (rewrite length_take; lia).
  assert (256 ^ Z.of_nat (length (take 2 (drop 1 header))) <= 256 ^ 2)
    by (apply Z.pow_le_mono_r; lia).
  lia.
Qed.

Section ReadFrameMore.

Context {Frame : Type}.
Variable ZigBeeAPIFrames : Z -> py (bytes -> bytes -> py Frame).

Lemma read_frame_complete_dispatch (som hi lo : byte) (payload : bytes)
    (ck : byte) (rest : bytes) :
  Z.of_nat (length payload) = Z_of_byte hi * 256 + Z_of_byte lo ->
  read_frame ZigBeeAPIFrames ([som; hi; lo] ++ payload ++ [ck] ++ rest) =
    (dispatch ZigBeeAPIFrames payload [ck], rest).
Proof. apply read_frame_complete. Qed.


(** X11: a header announcing an empty payload makes [read_frame] raise
    [IndexError] at [payload[0]], whatever the frame table; the byte after
    the header has been consumed as the checksum by then. *)
Theorem read_frame_empty_payload (som : byte) (tail : bytes) :
  read_frame ZigBeeAPIFrames (som :: x00 :: x00 :: tail) =
    (Raise IndexError, drop 1 tail).
Proof. reflexivity. Qed.


(** X13: whatever the input and the outcome, [read_frame] leaves a suffix
    of its input and consumes at most 65539 bytes (3 of header, 65535 of
    payload, 1 of checksum). *)
Theorem read_frame_leaves_suffix (input : bytes) :
  exists consumed,
    input = consumed ++ snd (read_frame ZigBeeAPIFrames input) /\
    Z.of_nat (length consumed) <= 65539.
Proof.
  assert (exists k, Z.of_nat k <= 65539 /\
            snd (read_frame ZigBeeAPIFrames input) = drop k input)
    as (k & Hk & ->).
  { unfold read_frame, read, Struct.unpack_from_BH.
    change (Z.to_nat 3) with 3%nat.
    destruct (_ <? 3); [by exists 3%nat; split; [lia|]|].
    pose proof (announced_length_range (take 3 input)) as Hr.
    exists (3 + (Z.to_nat (be_decode (take 2 (drop 1 (take 3 input)))) + 1))%nat.
    split; [lia|]. cbn [snd]. by rewrite !drop_drop. }
  exists (take k input). split; [by rewrite take_drop|].
  rewrite length_take. lia.
Qed.

(** X14: frames are read one after the other.  On an input made of two
    complete frames and more, the first call dispatches the first payload
    with its checksum byte and leaves the second frame and what follows;
    the next call, on what was left, dispatches the second payload. *)
Theorem read_frame_twice (som1 hi1 lo1 : byte) (payload1 : bytes) (ck1 : byte)
    (som2 hi2 lo2 : byte) (payload2 : bytes) (ck2 : byte) (rest : bytes) :
  Z.of_nat (length payload1) = Z_of_byte hi1 * 256 + Z_of_byte lo1 ->
  Z.of_nat (length payload2) = Z_of_byte hi2 * 256 + Z_of_byte lo2 ->
  let frame2 := [som2; hi2; lo2] ++ payload2 ++ [ck2] in
  let input := ([som1; hi1; lo1] ++ payload1 ++ [ck1]) ++ frame2 ++ rest in
  read_frame ZigBeeAPIFrames input =
    (dispatch ZigBeeAPIFrames payload1 [ck1], frame2 ++ rest) /\
  read_frame ZigBeeAPIFrames (snd (read_frame ZigBeeAPIFrames input)) =
    (dispatch ZigBeeAPIFrames payload2 [ck2], rest).
Proof.
  intros Hlen1 Hlen2 frame2 input.
  assert (read_frame ZigBeeAPIFrames input =
            (dispatch ZigBeeAPIFrames payload1 [ck1], frame2 ++ rest)) as ->.
  { unfold input. rewrite <- !app_assoc.
    by rewrite (read_frame_complete_dispatch _ _ _ _ _ _ Hlen1). }
  split; [done|]. cbn [snd]. unfold frame2. rewrite <- !app_assoc.
  by rewrite (read_frame_complete_dispatch _ _ _ _ _ _ Hlen2).
Qed.

End ReadFrameMore.



Lemma read_frame_twice_witness :
  read_frame recording_frames
      (([x7e; x00; x02] ++ [x88; x01] ++ [x76])
         ++ ([x7e; x00; x01] ++ [x8a] ++ [x75]) ++ [xff])
    = (dispatch recording_frames [x88; x01] [x76],
       ([x7e; x00; x01] ++ [x8a] ++ [x75]) ++ [xff]) /\
  read_frame recording_frames
      (snd (read_frame recording_frames
              (([x7e; x00; x02] ++ [x88; x01] ++ [x76])
                 ++ ([x7e; x00; x01] ++ [x8a] ++ [x75]) ++ [xff])))
    = (dispatch recording_frames [x8a] [x75], [xff]).
Proof.
  apply (read_frame_twice recording_frames
           x7e x00 x02 [x88; x01] x76 x7e x00 x01 [x8a] x75 [xff]);
    reflexivity.
Defined.

(** X15: what [send_frame] writes is what [read_frame] reads.  Two frames
    whose [pack] gives a start byte, the two-byte big-endian payload length,
    the payload and one checksum byte, sent one after the other on an idle
    wire, both return [None]; [read_frame] at the far end then dispatches
    the first payload and leaves exactly the second frame, and a second
    call dispatches the second payload and leaves nothing. *)
Theorem send_twice_read_twice {F Frame : Type} (frame_pack : F -> py bytes)
    (ZigBeeAPIFrames : Z -> py (bytes -> bytes -> py Frame))
    (frame1 frame2 : F)
    (som1 hi1 lo1 : byte) (payload1 : bytes) (ck1 : byte)
    (som2 hi2 lo2 : byte) (payload2 : bytes) (ck2 : byte) :
  frame_pack frame1 = Ret ([som1; hi1; lo1] ++ payload1 ++ [ck1]) ->
  frame_pack frame2 = Ret ([som2; hi2; lo2] ++ payload2 ++ [ck2]) ->
  Z.of_nat (length payload1) = Z_of_byte hi1 * 256 + Z_of_byte lo1 ->
  Z.of_nat (length payload2) = Z_of_byte hi2 * 256 + Z_of_byte lo2 ->
  let sent1 := send_frame frame_pack frame1 [] in
  let sent2 := send_frame frame_pack frame2 (snd sent1) in
  fst sent1 = Ret () /\ fst sent2 = Ret () /\
  read_frame ZigBeeAPIFrames (snd sent2) =
    (dispatch ZigBeeAPIFrames payload1 [ck1],
     [som2; hi2; lo2] ++ payload2 ++ [ck2]) /\
  read_frame ZigBeeAPIFrames ([som2; hi2; lo2] ++ payload2 ++ [ck2]) =
    (dispatch ZigBeeAPIFrames payload2 [ck2], []).
Proof.
  intros Hp1 Hp2 Hlen1 Hlen2 sent1 sent2.
  unfold sent2, sent1, send_frame, write. rewrite Hp1. cbn [snd fst].
  rewrite Hp2. cbn [snd fst app]. do 2 (split; [done|]). split.
  - pose proof (read_frame_complete_dispatch ZigBeeAPIFrames
                  som1 hi1 lo1 payload1 ck1
                  ([som2; hi2; lo2] ++ payload2 ++ [ck2]) Hlen1) as H.
    etrans; [|exact H]. f_equal. cbn [app]. by rewrite <- !app_assoc.
  - pose proof (read_frame_complete_dispatch ZigBeeAPIFrames
                  som2 hi2 lo2 payload2 ck2 [] Hlen2) as H.
    etrans; [|exact H]. f_equal.
Qed.

Lemma send_twice_read_twice_witness :
  fst (send_frame (fun data : bytes => Ret data)
         ([x7e; x00; x02] ++ [x88; x01] ++ [x76]) []) = Ret () /\
  fst (send_frame (fun data : bytes => Ret data)
         ([x7e; x00; x01] ++ [x8a] ++ [x75])
         (snd (send_frame (fun data : bytes => Ret data)
                 ([x7e; x00; x02] ++ [x88; x01] ++ [x76]) []))) = Ret () /\
  read_frame recording_frames
      (snd (send_frame (fun data : bytes => Ret data)
              ([x7e; x00; x01] ++ [x8a] ++ [x75])
              (snd (send_frame (fun data : bytes => Ret data)
                      ([x7e; x00; x02] ++ [x88; x01] ++ [x76]) []))))
    = (Ret ([x88; x01], [x76]), [x7e; x00; x01] ++ [x8a] ++ [x75]) /\
  read_frame recording_frames ([x7e; x00; x01] ++ [x8a] ++ [x75])
    = (Ret ([x8a], [x75]), []).
Proof.
  apply (send_twice_read_twice (fun data : bytes => Ret data) recording_frames
           ([x7e; x00; x02] ++ [x88; x01] ++ [x76])
           ([x7e; x00; x01] ++ [x8a] ++ [x75])
           x7e x00 x02 [x88; x01] x76 x7e x00 x01 [x8a] x75);
    reflexivity.
Defined.
